(** * Soil nutrient predictor: the prediction engine of [script.js]

    A shallow embedding of the computational methods of the [SoilAnalyzer]
    class ([getParameterStatus], [generatePredictions] and the methods it
    calls) together with the properties the specification states about them.

    Numbers.  A JavaScript number is modelled as an exact rational or [NaN]:
    rounding error, overflow and the infinities of IEEE doubles are left out,
    every decimal literal of the source denotes the rational it spells.
    [NaN] is kept because the source can produce it: reading a field that an
    object does not have gives [undefined], and arithmetic or a comparison
    on [undefined] converts it to [NaN].

    Objects.  The two lookup tables of the source are object literals indexed
    by a string.  A property read on an object literal first looks at the
    literal's own properties and then at [Object.prototype], so the model
    keeps both.

    Randomness.  [Math.random()] is a read of an ambient source of numbers in
    [0,1); the source is threaded through a state monad, one draw per call,
    in the order in which the source calls it. *)

From Stdlib Require Import QArith Qabs Qround Qminmax String List Bool Lia Lqa ZArith.
From ExtLib Require Import Structures.Monad Structures.MonadState Data.Monads.StateMonad.
Import ListNotations.
Import MonadNotation.

Open Scope string_scope.
Open Scope Q_scope.
Open Scope monad_scope.

(** ** JavaScript numbers, property lookup and [Math] *)

Module JS.

Inductive number : Type :=
| NaN
| Num (q : Q).

Definition add (x y : number) : number :=
  match x, y with
  | Num a, Num b => Num (a + b)
  | _, _ => NaN
  end.

Definition sub (x y : number) : number :=
  match x, y with
  | Num a, Num b => Num (a - b)
  | _, _ => NaN
  end.

Definition mul (x y : number) : number :=
  match x, y with
  | Num a, Num b => Num (a * b)
  | _, _ => NaN
  end.

(** Division is only ever by a non-zero literal in the source. *)
Definition div (x y : number) : number :=
  match x, y with
  | Num a, Num b => Num (a / b)
  | _, _ => NaN
  end.

Definition Qltb (a b : Q) : bool := negb (Qle_bool b a).

(** Every comparison with [NaN] is false. *)
Definition lt (x y : number) : bool :=
  match x, y with
  | Num a, Num b => Qltb a b
  | _, _ => false
  end.

Definition gt (x y : number) : bool := lt y x.

Definition le (x y : number) : bool :=
  match x, y with
  | Num a, Num b => Qle_bool a b
  | _, _ => false
  end.

Definition ge (x y : number) : bool := le y x.

Definition Math_abs (x : number) : number :=
  match x with
  | Num a => Num (Qabs a)
  | NaN => NaN
  end.

Definition Math_min (x y : number) : number :=
  match x, y with
  | Num a, Num b => Num (Qmin a b)
  | _, _ => NaN
  end.

Definition Math_max (x y : number) : number :=
  match x, y with
  | Num a, Num b => Num (Qmax a b)
  | _, _ => NaN
  end.

(** [Math.round] goes to the nearest integer, a tie goes up. *)
Definition Math_round (x : number) : number :=
  match x with
  | Num a => Num (inject_Z (Qfloor (a + (1 # 2))))
  | NaN => NaN
  end.

(** What [o[key]] evaluates to, for an object literal [o] whose own
    properties hold records of type [A]: such a record, a member of
    [Object.prototype] (a function, or the prototype itself for
    [__proto__]), or [undefined]. *)
Inductive value (A : Type) : Type :=
| undefined
| inherited (key : string)
| own (a : A).

Arguments undefined {A}.
Arguments inherited {A} key.
Arguments own {A} a.

(** The properties of [Object.prototype] (ECMAScript, with Annex B). *)
Definition Object_prototype : list string :=
  [ "constructor"; "hasOwnProperty"; "isPrototypeOf"; "propertyIsEnumerable";
    "toLocaleString"; "toString"; "valueOf"; "__proto__";
    "__defineGetter__"; "__defineSetter__"; "__lookupGetter__";
    "__lookupSetter__" ].

Fixpoint own_property {A : Type} (o : list (string * A)) (key : string) : option A :=
  match o with
  | [] => None
  | (k, a) :: rest => if String.eqb key k then Some a else own_property rest key
  end.

Definition get {A : Type} (o : list (string * A)) (key : string) : value A :=
  match own_property o key with
  | Some a => own a
  | None => if existsb (String.eqb key) Object_prototype then inherited key else undefined
  end.

(** Objects and functions are truthy, [undefined] is not. *)
Definition truthy {A : Type} (v : value A) : bool :=
  match v with
  | undefined => false
  | _ => true
  end.

(** [v || w] *)
Definition or {A : Type} (v w : value A) : value A :=
  if truthy v then v else w.

(** [v.f] used as a number.  The members of [Object.prototype] have none of
    the fields the source reads, so the read gives [undefined], that is [NaN]
    once used in arithmetic or in a comparison.  (A read on [undefined]
    itself would throw; both call sites exclude it beforehand.) *)
Definition field {A : Type} (f : A -> Q) (v : value A) : number :=
  match v with
  | own a => Num (f a)
  | _ => NaN
  end.

(** [xs.join(sep)] *)
Definition join (sep : string) (xs : list string) : string := String.concat sep xs.

(** [v?.[key]] where the own properties of [v]'s holder are themselves object
    literals: [undefined] stays [undefined], and a member of
    [Object.prototype] has none of the keys the source reads this way. *)
Definition optional_get {A : Type} (v : value (list (string * A))) (key : string) : value A :=
  match v with
  | own o => get o key
  | _ => undefined
  end.

(** [v || w] where [v] is a string, a member of [Object.prototype] or
    [undefined], and [w] a string: the empty string and [undefined] are
    falsy. *)
Definition or_text (v : value string) (w : string) : value string :=
  match v with
  | own s => if String.eqb s "" then own w else own s
  | inherited key => inherited key
  | undefined => own w
  end.

End JS.

Coercion JS.Num : Q >-> JS.number.

Declare Scope js_scope.
Delimit Scope js_scope with js.
Bind Scope js_scope with JS.number.
Infix "+" := JS.add : js_scope.
Infix "-" := JS.sub : js_scope.
Infix "*" := JS.mul : js_scope.
Infix "/" := JS.div : js_scope.
Infix "<?" := JS.lt (at level 70, no associativity) : js_scope.
Infix ">?" := JS.gt (at level 70, no associativity) : js_scope.
Infix "<=?" := JS.le (at level 70, no associativity) : js_scope.
Infix ">=?" := JS.ge (at level 70, no associativity) : js_scope.

(** ** The random source *)

(** The successive results of [Math.random()]. *)
Definition RandomSource : Type := nat -> Q.

Definition Math_random : state RandomSource JS.number :=
  s <- get ;;
  put (fun i => s (S i)) ;;
  ret (JS.Num (s 0%nat)).

(** [Math.random()] returns a number in [0,1). *)
Definition unit_draws (s : RandomSource) : Prop :=
  forall i : nat, 0 <= s i /\ s i < 1.

(** ** The records of the source *)

(** The object built by [collectFormData]: five measurements and the value
    of the soil-type selector. *)
Module Data.
Record t : Type := mk {
  pH : Q;
  temperature : Q;
  moisture : Q;
  ec : Q;
  organicCarbon : Q;
  soilType : string
}.
End Data.

(** The object literal [{ nitrogen, phosphorus, potassium }]. *)
Module Nutrients.
Record t : Type := mk {
  nitrogen : JS.number;
  phosphorus : JS.number;
  potassium : JS.number
}.
End Nutrients.

Module Recommendation.
Record t : Type := mk {
  type : string;
  action : string;
  priority : string
}.
End Recommendation.

(** The object returned by [generatePredictions]. *)
Module Result.
Record t : Type := mk {
  nitrogen : JS.number;
  phosphorus : JS.number;
  potassium : JS.number;
  soilHealth : JS.number;
  fertilityIndex : JS.number;
  riskAssessment : string;
  cropSuitability : string;
  confidence : JS.number;
  recommendations : list Recommendation.t
}.
End Result.

Module Band.
Record t : Type := mk { low : Q; optimal : Q; high : Q }.
End Band.

Module Modifier.
Record t : Type := mk { n : Q; p : Q; k : Q }.
End Modifier.

(** ** The methods of [SoilAnalyzer] *)

Module SoilAnalyzer.

Local Open Scope js_scope.

Definition ranges : list (string * Band.t) :=
  [ ("pH", Band.mk 5.5 7.0 8.5);
    ("temperature", Band.mk 18 25 30);
    ("moisture", Band.mk 30 50 70);
    ("ec", Band.mk 0.5 1.2 2.0);
    ("organicCarbon", Band.mk 1.0 2.5 3.5) ].

Definition getParameterStatus (parameter : string) (value : JS.number) : string :=
  if negb (JS.truthy (JS.get ranges parameter)) then "Unknown" else
  let low := JS.field Band.low (JS.get ranges parameter) in
  let optimal := JS.field Band.optimal (JS.get ranges parameter) in
  let high := JS.field Band.high (JS.get ranges parameter) in
  if value <? low then "Low"
  else if value >? high then "High"
  else if JS.Math_abs (value - optimal) <=? optimal * 0.2 then "Optimal"
  else "Good".

Definition soilModifiers : list (string * Modifier.t) :=
  [ ("clay", Modifier.mk 1.1 0.9 1.0);
    ("sandy", Modifier.mk 0.8 1.1 0.9);
    ("loam", Modifier.mk 1.0 1.0 1.0);
    ("silt", Modifier.mk 0.9 1.0 1.1);
    ("peat", Modifier.mk 1.2 0.8 0.8);
    ("chalk", Modifier.mk 0.7 1.2 0.9) ].

Definition calculateNitrogen (pH temp moisture organicCarbon : JS.number)
  : state RandomSource JS.number :=
  let base := organicCarbon * 15 in
  let pHFactor := 1 - JS.Math_abs (pH - 6.75) * 0.15 in
  let tempFactor := 1 - JS.Math_abs (temp - 25) * 0.02 in
  let moistureFactor : JS.number :=
    if (moisture >? 40) && (moisture <? 70) then 1.1 else 0.9 in
  r <- Math_random ;;
  ret (base * pHFactor * tempFactor * moistureFactor + r * 10).

Definition calculatePhosphorus (pH ec organicCarbon temp : JS.number)
  : state RandomSource JS.number :=
  let base := organicCarbon * 8 + ec * 10 in
  let pHFactor : JS.number := if pH <? 7 then 1.2 else 1 - (pH - 7) * 0.1 in
  let tempFactor : JS.number := if temp >? 20 then 1.1 else 0.9 in
  r <- Math_random ;;
  ret (base * pHFactor * tempFactor + r * 15).

Definition calculatePotassium (pH ec moisture : JS.number) (soilType : string)
  : state RandomSource JS.number :=
  let base := ec * 15 + moisture * 0.5 in
  let pHFactor : JS.number := if (pH >? 6) && (pH <? 8) then 1.1 else 0.9 in
  let typeFactor : JS.number := if String.eqb soilType "clay" then 1.2 else 1.0 in
  r <- Math_random ;;
  ret (base * pHFactor * typeFactor + r * 12).

Definition calculateSoilHealth (n p k pH organicCarbon : JS.number) : JS.number :=
  let nutrientBalance := (n + p + k) / 3 in
  let pHScore := 100 - JS.Math_abs (pH - 6.8) * 10 in
  let organicScore := JS.Math_min (organicCarbon * 25) 100 in
  nutrientBalance * 0.4 + pHScore * 0.3 + organicScore * 0.3.

Definition calculateFertilityIndex (n p k : JS.number) : JS.number :=
  n * 0.4 + p * 0.35 + k * 0.25.

(** [risks.push(label)] under a condition. *)
Definition push_if {A : Type} (c : bool) (x : A) (xs : list A) : list A :=
  if c then (xs ++ [x])%list else xs.

Definition assessRisks (data : Data.t) (nutrients : Nutrients.t) : string :=
  let risks := [] in
  let risks := push_if (Data.pH data <? 5.5) "Soil acidity" risks in
  let risks := push_if (Data.pH data >? 8.5) "Soil alkalinity" risks in
  let risks := push_if (Data.ec data >? 2.5) "High salinity" risks in
  let risks := push_if (Nutrients.nitrogen nutrients <? 30) "Nitrogen deficiency" risks in
  let risks := push_if (Nutrients.phosphorus nutrients <? 25) "Phosphorus deficiency" risks in
  let risks := push_if (Nutrients.potassium nutrients <? 35) "Potassium deficiency" risks in
  if (0 <? length risks)%nat then JS.join ", " risks else "Low risk".

Definition assessCropSuitability (soilHealth fertilityIndex : JS.number) : string :=
  let avgScore := (soilHealth + fertilityIndex) / 2 in
  if avgScore >=? 80 then "Excellent for all crops"
  else if avgScore >=? 65 then "Good for most crops"
  else if avgScore >=? 50 then "Suitable with amendments"
  else "Requires significant improvement".

Definition generateRecommendations (data : Data.t) (nutrients : Nutrients.t)
  : list Recommendation.t :=
  let recommendations := [] in
  let recommendations :=
    if Data.pH data <? 6.0 then
      (recommendations ++
         [Recommendation.mk "pH Correction" "Apply lime to raise pH" "High"])%list
    else if Data.pH data >? 8.0 then
      (recommendations ++
         [Recommendation.mk "pH Correction" "Apply sulfur to lower pH" "High"])%list
    else recommendations in
  let recommendations :=
    push_if (Nutrients.nitrogen nutrients <? 40)
      (Recommendation.mk "Nitrogen" "Apply nitrogen fertilizer or compost" "Medium")
      recommendations in
  let recommendations :=
    push_if (Nutrients.phosphorus nutrients <? 30)
      (Recommendation.mk "Phosphorus" "Apply phosphate fertilizer" "Medium")
      recommendations in
  let recommendations :=
    push_if (Nutrients.potassium nutrients <? 40)
      (Recommendation.mk "Potassium" "Apply potash fertilizer" "Medium")
      recommendations in
  let recommendations :=
    push_if (Data.organicCarbon data <? 2.0)
      (Recommendation.mk "Organic Matter" "Add compost or organic amendments" "High")
      recommendations in
  recommendations.

(** [Math.round(x * 10) / 10] *)
Definition round1 (x : JS.number) : JS.number := JS.Math_round (x * 10) / 10.

Definition generatePredictions (data : Data.t) : state RandomSource Result.t :=
  let pH := Data.pH data in
  let temperature := Data.temperature data in
  let moisture := Data.moisture data in
  let ec := Data.ec data in
  let organicCarbon := Data.organicCarbon data in
  let soilType := Data.soilType data in
  let modifier := JS.or (JS.get soilModifiers soilType) (JS.get soilModifiers "loam") in
  n0 <- calculateNitrogen pH temperature moisture organicCarbon ;;
  let nitrogen := n0 * JS.field Modifier.n modifier in
  p0 <- calculatePhosphorus pH ec organicCarbon temperature ;;
  let phosphorus := p0 * JS.field Modifier.p modifier in
  k0 <- calculatePotassium pH ec moisture soilType ;;
  let potassium := k0 * JS.field Modifier.k modifier in
  let nitrogen := JS.Math_max 0 (JS.Math_min 100 nitrogen) in
  let phosphorus := JS.Math_max 0 (JS.Math_min 100 phosphorus) in
  let potassium := JS.Math_max 0 (JS.Math_min 100 potassium) in
  let soilHealth := calculateSoilHealth nitrogen phosphorus potassium pH organicCarbon in
  let fertilityIndex := calculateFertilityIndex nitrogen phosphorus potassium in
  let riskAssessment := assessRisks data (Nutrients.mk nitrogen phosphorus potassium) in
  let cropSuitability := assessCropSuitability soilHealth fertilityIndex in
  c <- Math_random ;;
  ret (Result.mk
         (round1 nitrogen)
         (round1 phosphorus)
         (round1 potassium)
         (round1 soilHealth)
         (round1 fertilityIndex)
         riskAssessment
         cropSuitability
         (round1 (85 + c * 15))
         (generateRecommendations data (Nutrients.mk nitrogen phosphorus potassium))).

Definition getStatusClass (parameter : string) (value : JS.number) : string :=
  let status := getParameterStatus parameter value in
  if String.eqb status "Optimal" then "status-optimal"
  else if String.eqb status "Good" then "status-good"
  else if String.eqb status "Low" || String.eqb status "High" then "status-warning"
  else "status-unknown".

Definition getNutrientStatus (value : JS.number) : string :=
  if value >=? 70 then "Excellent"
  else if value >=? 50 then "Good"
  else if value >=? 30 then "Fair"
  else "Poor".

Definition descriptions : list (string * list (string * string)) :=
  [ ("nitrogen",
     [ ("high", "Excellent for leafy growth and protein synthesis");
       ("medium", "Adequate for most plant growth requirements");
       ("low", "May limit plant growth and yield potential") ]);
    ("phosphorus",
     [ ("high", "Optimal for root development and flowering");
       ("medium", "Sufficient for normal plant development");
       ("low", "Could restrict root growth and fruit production") ]);
    ("potassium",
     [ ("high", "Excellent for disease resistance and water regulation");
       ("medium", "Adequate for plant health and stress tolerance");
       ("low", "May reduce plant immunity and drought resistance") ]) ].

Definition getNutrientDescription (nutrient : string) (value : JS.number)
  : JS.value string :=
  let level := if value >=? 60 then "high" else if value >=? 35 then "medium" else "low" in
  JS.or_text (JS.optional_get (JS.get descriptions nutrient) level) "Analysis complete".

End SoilAnalyzer.

(** [predict] is the specification's name of [generatePredictions]; a run
    takes the input record and the random source and gives the result. *)
Definition predict (data : Data.t) (s : RandomSource) : Result.t :=
  evalState (SoilAnalyzer.generatePredictions data) s.

(** ** Notions used in the statements *)

(** [x] is a number of the closed interval from [lo] to [hi]. *)
Definition in_range (lo hi : Q) (x : JS.number) : Prop :=
  match x with
  | JS.Num q => lo <= q /\ q <= hi
  | JS.NaN => False
  end.

(** [x] is a number of the interval from [lo] to [hi], [hi] left out. *)
Definition in_range_open (lo hi : Q) (x : JS.number) : Prop :=
  match x with
  | JS.Num q => lo <= q /\ q < hi
  | JS.NaN => False
  end.


(** The same number: rationals are compared by value, not by representation. *)
Definition number_eq (x y : JS.number) : Prop :=
  match x, y with
  | JS.Num a, JS.Num b => a == b
  | JS.NaN, JS.NaN => True
  | _, _ => False
  end.

(** The value of [modifier] in [generatePredictions]. *)
Definition soil_modifier (soilType : string) : JS.value Modifier.t :=
  JS.or (JS.get SoilAnalyzer.soilModifiers soilType)
        (JS.get SoilAnalyzer.soilModifiers "loam").

(** The value of [nitrogen] in [generatePredictions] before it is clamped. *)
Definition nitrogen_estimate (data : Data.t) : state RandomSource JS.number :=
  n0 <- SoilAnalyzer.calculateNitrogen (Data.pH data) (Data.temperature data)
          (Data.moisture data) (Data.organicCarbon data) ;;
  ret (n0 * JS.field Modifier.n (soil_modifier (Data.soilType data)))%js.

(** [Math.max(0, Math.min(100, x))] *)
Definition clamp (x : JS.number) : JS.number :=
  JS.Math_max 0 (JS.Math_min 100 x).

(** The three nutrient estimates of [generatePredictions] once clamped, the
    values handed to the index, risk and recommendation methods. *)
Definition estimate (data : Data.t) : state RandomSource Nutrients.t :=
  let modifier := soil_modifier (Data.soilType data) in
  n0 <- SoilAnalyzer.calculateNitrogen (Data.pH data) (Data.temperature data)
          (Data.moisture data) (Data.organicCarbon data) ;;
  p0 <- SoilAnalyzer.calculatePhosphorus (Data.pH data) (Data.ec data)
          (Data.organicCarbon data) (Data.temperature data) ;;
  k0 <- SoilAnalyzer.calculatePotassium (Data.pH data) (Data.ec data)
          (Data.moisture data) (Data.soilType data) ;;
  ret (Nutrients.mk (clamp (n0 * JS.field Modifier.n modifier)%js)
                    (clamp (p0 * JS.field Modifier.p modifier)%js)
                    (clamp (k0 * JS.field Modifier.k modifier)%js)).

(** The input record with another soil type. *)
Definition with_soilType (data : Data.t) (soilType : string) : Data.t :=
  Data.mk (Data.pH data) (Data.temperature data) (Data.moisture data)
          (Data.ec data) (Data.organicCarbon data) soilType.

(** The soil types of the modifier table. *)
Definition listed_soil_types : list string :=
  ["clay"; "sandy"; "loam"; "silt"; "peat"; "chalk"].

(** The parameter names of the band table. *)
Definition listed_parameters : list string :=
  ["pH"; "temperature"; "moisture"; "ec"; "organicCarbon"].

(** *** The specification's wording *)





(** The six threshold rules of the risk assessment, in their fixed order. *)
Definition risk_rules (data : Data.t) (nutrients : Nutrients.t) : list (bool * string) :=
  [ ((Data.pH data <? 5.5)%js, "Soil acidity");
    ((Data.pH data >? 8.5)%js, "Soil alkalinity");
    ((Data.ec data >? 2.5)%js, "High salinity");
    ((Nutrients.nitrogen nutrients <? 30)%js, "Nitrogen deficiency");
    ((Nutrients.phosphorus nutrients <? 25)%js, "Phosphorus deficiency");
    ((Nutrients.potassium nutrients <? 35)%js, "Potassium deficiency") ].

(** The labels of the rules that fire. *)
Definition fired_labels (data : Data.t) (nutrients : Nutrients.t) : list string :=
  map snd (filter fst (risk_rules data nutrients)).

(** [sub] occurs in [s]. *)
Definition contains (sub s : string) : bool :=
  match String.index 0 sub s with
  | Some _ => true
  | None => false
  end.

(** How many recommendations carry the action [a]. *)
Definition count_action (a : string) (recs : list Recommendation.t) : nat :=
  length (filter (fun r => String.eqb (Recommendation.action r) a) recs).

(** The recommendations of the pH category. *)
Definition pH_recommendations (recs : list Recommendation.t) : list Recommendation.t :=
  filter (fun r => String.eqb (Recommendation.type r) "pH Correction") recs.

Definition NeedsImprovement : string := "Requires significant improvement".

(** *** Notions for the remaining methods *)

(** The value of [phosphorus] in [generatePredictions] before it is clamped:
    the draw of [calculateNitrogen] comes first. *)
Definition phosphorus_estimate (data : Data.t) : state RandomSource JS.number :=
  _ <- SoilAnalyzer.calculateNitrogen (Data.pH data) (Data.temperature data)
         (Data.moisture data) (Data.organicCarbon data) ;;
  p0 <- SoilAnalyzer.calculatePhosphorus (Data.pH data) (Data.ec data)
          (Data.organicCarbon data) (Data.temperature data) ;;
  ret (p0 * JS.field Modifier.p (soil_modifier (Data.soilType data)))%js.

(** The value of [potassium] in [generatePredictions] before it is clamped:
    the draws of the other two come first. *)
Definition potassium_estimate (data : Data.t) : state RandomSource JS.number :=
  _ <- SoilAnalyzer.calculateNitrogen (Data.pH data) (Data.temperature data)
         (Data.moisture data) (Data.organicCarbon data) ;;
  _ <- SoilAnalyzer.calculatePhosphorus (Data.pH data) (Data.ec data)
         (Data.organicCarbon data) (Data.temperature data) ;;
  k0 <- SoilAnalyzer.calculatePotassium (Data.pH data) (Data.ec data)
          (Data.moisture data) (Data.soilType data) ;;
  ret (k0 * JS.field Modifier.k (soil_modifier (Data.soilType data)))%js.



(** The nutrient names of the description table. *)
Definition listed_nutrients : list string := ["nitrogen"; "phosphorus"; "potassium"].

(** The order of the four nutrient statuses, from worst to best. *)
Definition status_rank (status : string) : nat :=
  if String.eqb status "Excellent" then 3
  else if String.eqb status "Good" then 2
  else if String.eqb status "Fair" then 1
  else 0.

(** [xs] is [ys] with some elements left out, the order kept. *)
Fixpoint subsequence (xs ys : list string) : bool :=
  match xs, ys with
  | [], _ => true
  | _ :: _, [] => false
  | x :: xs', y :: ys' =>
      if String.eqb x y then subsequence xs' ys' else subsequence xs ys'
  end.

(** The order in which the recommendation rules are evaluated. *)
Definition recommendation_order : list string :=
  ["pH Correction"; "Nitrogen"; "Phosphorus"; "Potassium"; "Organic Matter"].

(** A recommendation of the category [t] is in the list. *)
Definition recommends (t : string) (recs : list Recommendation.t) : bool :=
  existsb (fun r => String.eqb (Recommendation.type r) t) recs.

(** The action [a] is in the list. *)
Definition advises (a : string) (recs : list Recommendation.t) : bool :=
  existsb (fun r => String.eqb (Recommendation.action r) a) recs.

(** *** Sample inputs *)

(** The defaults of [collectFormData]. *)
Definition default_data : Data.t := Data.mk 6.5 25 50 1.2 2.2 "loam".

(** The defaults with a soil type whose name is a member of
    [Object.prototype]. *)
Definition toString_data : Data.t := Data.mk 6.5 25 50 1.2 2.2 "toString".

(** A soil with pH 20 and nothing else in it. *)
Definition pH20_data : Data.t := Data.mk 20 25 0 0 0 "loam".

(** Random sources that always draw the same number. *)
Definition always (q : Q) : RandomSource := fun _ => q.

(** A random source that draws [q] for the three estimates and [c] from
    then on. *)
Definition other_confidence_draws (q c : Q) : RandomSource :=
  fun i => if (i <? 3)%nat then q else c.

(** ** Tactics *)

(** Linear arithmetic over Q once the divisions by a literal are products. *)
Ltac q_arith := unfold Qdiv in *; cbn [Qinv Qnum Qden] in *; lra.

(** Unfolds the monad and the operations on numbers, leaves Q alone. *)
Ltac js_eval :=
  cbn [evalState runState bind ret Monad_state MonadState_state get put fst snd
       Math_random estimate nitrogen_estimate clamp predict
       SoilAnalyzer.calculateNitrogen SoilAnalyzer.calculatePhosphorus
       SoilAnalyzer.calculatePotassium SoilAnalyzer.calculateSoilHealth
       SoilAnalyzer.calculateFertilityIndex SoilAnalyzer.round1
       JS.add JS.sub JS.mul JS.div JS.Math_abs JS.Math_min JS.Math_max JS.Math_round
       JS.lt JS.gt JS.le JS.ge JS.field
       Nutrients.nitrogen Nutrients.phosphorus Nutrients.potassium].

(** Destructs every test of the rules. *)
Ltac rule_cases :=
  repeat match goal with
         | |- context [(?a <? ?b)%js] => destruct (a <? b)%js
         | |- context [(?a >? ?b)%js] => destruct (a >? b)%js
         end.

(** * Properties *)

(** ** Numbers *)

Section Numbers.

Lemma Qltb_lt (a b : Q) : JS.Qltb a b = true <-> a < b.
Proof.
  unfold JS.Qltb. rewrite negb_true_iff.
  split; intros H.
  - apply Qnot_le_lt. intros Hle. apply Qle_bool_iff in Hle. congruence.
  - destruct (Qle_bool b a) eqn:E; [|reflexivity].
    apply Qle_bool_iff in E. lra.
Qed.

Lemma Qltb_ge (a b : Q) : JS.Qltb a b = false <-> b <= a.
Proof.
  unfold JS.Qltb. rewrite negb_false_iff. apply Qle_bool_iff.
Qed.

Lemma Qltb_spec (a b : Q) : reflect (a < b) (JS.Qltb a b).
Proof.
  destruct (JS.Qltb a b) eqn:E; constructor.
  - now apply Qltb_lt.
  - apply Qltb_ge in E. lra.
Qed.

Lemma Qle_bool_spec (a b : Q) : reflect (a <= b) (Qle_bool a b).
Proof.
  destruct (Qle_bool a b) eqn:E; constructor.
  - now apply Qle_bool_iff.
  - intros H. apply Qle_bool_iff in H. congruence.
Qed.

Lemma Qclamp_range (q : Q) : 0 <= Qmax 0 (Qmin 100 q) /\ Qmax 0 (Qmin 100 q) <= 100.
Proof.
  destruct (Q.max_spec 0 (Qmin 100 q)) as [[H1 H2]|[H1 H2]];
  destruct (Q.min_spec 100 q) as [[H3 H4]|[H3 H4]]; lra.
Qed.

Lemma clamp_Num (q : Q) : clamp (JS.Num q) = JS.Num (Qmax 0 (Qmin 100 q)).
Proof. reflexivity. Qed.

Lemma round1_Num (q : Q) :
  SoilAnalyzer.round1 (JS.Num q) = JS.Num (inject_Z (Qfloor (q * 10 + (1 # 2))) / 10).
Proof. reflexivity. Qed.


(** Rounding to one decimal keeps a number above a whole lower bound and
    below a whole upper bound. *)
Lemma Qround1_ge (lo : Z) (q : Q) :
  inject_Z lo <= q -> inject_Z lo <= inject_Z (Qfloor (q * 10 + (1 # 2))) / 10.
Proof.
  intros Hlo.
  assert (H1 : (lo * 10 <= Qfloor (q * 10 + (1 # 2)))%Z).
  { rewrite <- (Qfloor_Z (lo * 10)). apply Qfloor_resp_le.
    rewrite inject_Z_mult. change (inject_Z 10) with 10. lra. }
  rewrite Zle_Qle, inject_Z_mult in H1. change (inject_Z 10) with 10 in H1.
  generalize dependent (inject_Z (Qfloor (q * 10 + (1 # 2)))).
  generalize dependent (inject_Z lo).
  intros; q_arith.
Qed.

Lemma Qround1_le (hi : Z) (q : Q) :
  q <= inject_Z hi -> inject_Z (Qfloor (q * 10 + (1 # 2))) / 10 <= inject_Z hi.
Proof.
  intros Hhi.
  assert (H2 : (Qfloor (q * 10 + (1 # 2)) <= hi * 10)%Z).
  { assert (H : (Qfloor (q * 10 + (1 # 2)) < hi * 10 + 1)%Z); [|lia].
    rewrite Zlt_Qlt.
    apply Qle_lt_trans with (q * 10 + (1 # 2)); [apply Qfloor_le|].
    rewrite inject_Z_plus, inject_Z_mult.
    change (inject_Z 10) with 10. change (inject_Z 1) with 1. lra. }
  rewrite Zle_Qle, inject_Z_mult in H2. change (inject_Z 10) with 10 in H2.
  generalize dependent (inject_Z (Qfloor (q * 10 + (1 # 2)))).
  generalize dependent (inject_Z hi).
  intros; q_arith.
Qed.

Lemma round1_in_range (lo hi : Z) (x : JS.number) :
  in_range (inject_Z lo) (inject_Z hi) x ->
  in_range (inject_Z lo) (inject_Z hi) (SoilAnalyzer.round1 x).
Proof.
  destruct x as [|q]; [simpl; tauto|].
  intros [Hlo Hhi]. rewrite round1_Num.
  split; [now apply Qround1_ge | now apply Qround1_le].
Qed.




End Numbers.

(** ** Property lookup *)

Section Lookup.

Lemma in_Object_prototype (key : string) :
  existsb (String.eqb key) JS.Object_prototype = true <-> In key JS.Object_prototype.
Proof.
  rewrite existsb_exists. split.
  - intros [k [Hin Heq]]. apply String.eqb_eq in Heq. now subst.
  - intros Hin. exists key. split; [assumption | apply String.eqb_refl].
Qed.

(** A key that is not an own property resolves through the prototype. *)
Lemma get_not_own {A : Type} (o : list (string * A)) (key : string) :
  JS.own_property o key = None ->
  JS.get o key = if existsb (String.eqb key) JS.Object_prototype
                 then JS.inherited key else JS.undefined.
Proof. intros H. unfold JS.get. now rewrite H. Qed.

Lemma get_inherited {A : Type} (o : list (string * A)) (key : string) :
  JS.own_property o key = None -> In key JS.Object_prototype ->
  JS.get o key = JS.inherited key.
Proof.
  intros Hown Hin. rewrite (get_not_own _ _ Hown).
  apply in_Object_prototype in Hin. now rewrite Hin.
Qed.

Lemma get_undefined {A : Type} (o : list (string * A)) (key : string) :
  JS.own_property o key = None -> ~ In key JS.Object_prototype ->
  JS.get o key = JS.undefined.
Proof.
  intros Hown Hin. rewrite (get_not_own _ _ Hown).
  destruct (existsb _ _) eqn:E; [|reflexivity].
  apply in_Object_prototype in E. contradiction.
Qed.

(** The own properties of [soilModifiers] are the six listed soil types. *)
Lemma soilModifiers_own (t : string) :
  ~ In t listed_soil_types <-> JS.own_property SoilAnalyzer.soilModifiers t = None.
Proof.
  unfold listed_soil_types, SoilAnalyzer.soilModifiers. cbn [JS.own_property In].
  repeat match goal with
         | |- context [String.eqb t ?k] =>
             destruct (String.eqb_spec t k) as [->|?];
             [split; [intros H; exfalso; apply H; auto 10 | discriminate]|]
         end.
  split; [reflexivity | intros _; intuition congruence].
Qed.

(** The own properties of [ranges] are the five listed parameters. *)
Lemma ranges_own (parameter : string) :
  ~ In parameter listed_parameters <->
  JS.own_property SoilAnalyzer.ranges parameter = None.
Proof.
  unfold listed_parameters, SoilAnalyzer.ranges. cbn [JS.own_property In].
  repeat match goal with
         | |- context [String.eqb parameter ?k] =>
             destruct (String.eqb_spec parameter k) as [->|?];
             [split; [intros H; exfalso; apply H; auto 10 | discriminate]|]
         end.
  split; [reflexivity | intros _; intuition congruence].
Qed.

(** The table of the specification: the modifiers of the listed types. *)
Lemma soil_modifier_listed :
  soil_modifier "clay" = JS.own (Modifier.mk 1.1 0.9 1.0) /\
  soil_modifier "sandy" = JS.own (Modifier.mk 0.8 1.1 0.9) /\
  soil_modifier "loam" = JS.own (Modifier.mk 1.0 1.0 1.0) /\
  soil_modifier "silt" = JS.own (Modifier.mk 0.9 1.0 1.1) /\
  soil_modifier "peat" = JS.own (Modifier.mk 1.2 0.8 0.8) /\
  soil_modifier "chalk" = JS.own (Modifier.mk 0.7 1.2 0.9).
Proof. repeat split. Qed.

(** A soil type that is neither listed nor a member of [Object.prototype]
    gets the modifiers of loam. *)
Lemma soil_modifier_default (t : string) :
  ~ In t listed_soil_types -> ~ In t JS.Object_prototype ->
  soil_modifier t = soil_modifier "loam".
Proof.
  intros Hl Hp. unfold soil_modifier at 1.
  rewrite (get_undefined _ _ (proj1 (soilModifiers_own t) Hl) Hp).
  reflexivity.
Qed.

(** A soil type that is a member of [Object.prototype] gets that member,
    not the modifiers of loam. *)
Lemma soil_modifier_inherited (t : string) :
  In t JS.Object_prototype -> soil_modifier t = JS.inherited t.
Proof.
  intros Hp. unfold soil_modifier.
  assert (Hl : ~ In t listed_soil_types).
  { intros Hl. unfold listed_soil_types, JS.Object_prototype in *.
    cbn [In] in *.
    repeat (destruct Hl as [<-|Hl]; [intuition discriminate|]). assumption. }
  rewrite (get_inherited _ _ (proj1 (soilModifiers_own t) Hl) Hp).
  reflexivity.
Qed.

(** [modifier] is a modifier record unless the soil type names a member of
    [Object.prototype]; it is never [undefined]. *)
Lemma soil_modifier_own (t : string) :
  ~ In t JS.Object_prototype -> exists m, soil_modifier t = JS.own m.
Proof.
  intros Hp. unfold soil_modifier.
  destruct (JS.own_property SoilAnalyzer.soilModifiers t) as [m|] eqn:E.
  - exists m. unfold JS.get. rewrite E. reflexivity.
  - rewrite (get_undefined _ _ E Hp). eexists. reflexivity.
Qed.

(** So the read of [modifier.n] never throws. *)
Lemma soil_modifier_defined (t : string) : soil_modifier t <> JS.undefined.
Proof.
  unfold soil_modifier, JS.or.
  destruct (JS.get SoilAnalyzer.soilModifiers t); cbn [JS.truthy]; discriminate.
Qed.

End Lookup.

(** ** Runs of the estimator *)

Section Runs.

Variables (d : Data.t) (s : RandomSource).

(** The result of [generatePredictions] in terms of the clamped estimates:
    the draws 0, 1 and 2 go to the estimates, draw 3 to the confidence. *)
Lemma predict_estimate :
  predict d s =
  let nu := evalState (estimate d) s in
  let sh := SoilAnalyzer.calculateSoilHealth (Nutrients.nitrogen nu)
              (Nutrients.phosphorus nu) (Nutrients.potassium nu)
              (Data.pH d) (Data.organicCarbon d) in
  let fi := SoilAnalyzer.calculateFertilityIndex (Nutrients.nitrogen nu)
              (Nutrients.phosphorus nu) (Nutrients.potassium nu) in
  Result.mk (SoilAnalyzer.round1 (Nutrients.nitrogen nu))
            (SoilAnalyzer.round1 (Nutrients.phosphorus nu))
            (SoilAnalyzer.round1 (Nutrients.potassium nu))
            (SoilAnalyzer.round1 sh)
            (SoilAnalyzer.round1 fi)
            (SoilAnalyzer.assessRisks d nu)
            (SoilAnalyzer.assessCropSuitability sh fi)
            (SoilAnalyzer.round1 (85 + JS.Num (s 3%nat) * 15)%js)
            (SoilAnalyzer.generateRecommendations d nu).
Proof. reflexivity. Qed.

Lemma predict_nitrogen :
  Result.nitrogen (predict d s) =
  SoilAnalyzer.round1 (clamp (evalState (nitrogen_estimate d) s)).
Proof. reflexivity. Qed.

(** The estimates before the modifier is applied are numbers. *)
Lemma estimate_shape :
  exists n0 p0 k0 : Q,
    evalState (estimate d) s =
    let modifier := soil_modifier (Data.soilType d) in
    Nutrients.mk (clamp (n0 * JS.field Modifier.n modifier)%js)
                 (clamp (p0 * JS.field Modifier.p modifier)%js)
                 (clamp (k0 * JS.field Modifier.k modifier)%js).
Proof.
  js_eval.
  destruct (JS.Qltb 40 (Data.moisture d) && JS.Qltb (Data.moisture d) 70);
  destruct (JS.Qltb (Data.pH d) 7);
  destruct (JS.Qltb 20 (Data.temperature d));
  destruct (JS.Qltb 6 (Data.pH d) && JS.Qltb (Data.pH d) 8);
  destruct (String.eqb (Data.soilType d) "clay");
  js_eval; do 3 eexists; reflexivity.
Qed.

(** With a modifier record the clamped estimates are numbers of [0,100]. *)
Lemma estimate_in_range :
  ~ In (Data.soilType d) JS.Object_prototype ->
  in_range 0 100 (Nutrients.nitrogen (evalState (estimate d) s)) /\
  in_range 0 100 (Nutrients.phosphorus (evalState (estimate d) s)) /\
  in_range 0 100 (Nutrients.potassium (evalState (estimate d) s)).
Proof.
  intros Hp.
  destruct estimate_shape as (n0 & p0 & k0 & ->).
  destruct (soil_modifier_own _ Hp) as [m ->].
  cbn [JS.field JS.mul Nutrients.nitrogen Nutrients.phosphorus Nutrients.potassium].
  repeat split; apply Qclamp_range.
Qed.

(** With a member of [Object.prototype] for modifier they are all [NaN]. *)
Lemma estimate_NaN :
  In (Data.soilType d) JS.Object_prototype ->
  evalState (estimate d) s = Nutrients.mk JS.NaN JS.NaN JS.NaN.
Proof.
  intros Hp.
  destruct estimate_shape as (n0 & p0 & k0 & ->).
  rewrite (soil_modifier_inherited _ Hp). reflexivity.
Qed.

End Runs.

(** ** The indices and the nutrient outputs *)

Section Indices.

Variables (d : Data.t) (s : RandomSource).

(** The nutrient outputs lie in [0,100] whenever the soil type does not name
    a member of [Object.prototype]. *)
Lemma nutrients_in_range :
  ~ In (Data.soilType d) JS.Object_prototype ->
  in_range 0 100 (Result.nitrogen (predict d s)) /\
  in_range 0 100 (Result.phosphorus (predict d s)) /\
  in_range 0 100 (Result.potassium (predict d s)).
Proof.
  intros Hp. rewrite predict_estimate.
  cbn [Result.nitrogen Result.phosphorus Result.potassium].
  destruct (estimate_in_range d s Hp) as (Hn & Hk & Hq).
  repeat split; apply (round1_in_range 0 100); assumption.
Qed.




(** They are all NaN when it does. *)
Lemma nutrients_NaN :
  In (Data.soilType d) JS.Object_prototype ->
  Result.nitrogen (predict d s) = JS.NaN /\
  Result.phosphorus (predict d s) = JS.NaN /\
  Result.potassium (predict d s) = JS.NaN.
Proof.
  intros Hp. rewrite predict_estimate, (estimate_NaN d s Hp). repeat split.
Qed.

End Indices.




(** C2.  The source violates the claim for a soil type that names a member
    of Object.prototype: [soilModifiers["toString"]] is a function, which is
    truthy, so the fallback to loam is not taken, its [n], [p] and [k] are
    [undefined], and the three nutrient outputs are NaN.  (For every other
    soil type the outputs lie in [0,100]: [nutrients_in_range].) *)
Theorem C2_nutrients_NaN_for_inherited_soil_type :
  unit_draws (always 0.5) /\
  Result.nitrogen (predict toString_data (always 0.5)) = JS.NaN /\
  Result.phosphorus (predict toString_data (always 0.5)) = JS.NaN /\
  Result.potassium (predict toString_data (always 0.5)) = JS.NaN /\
  ~ in_range 0 100 (Result.nitrogen (predict toString_data (always 0.5))).
Proof.
  split; [|repeat split].
  - intros i. unfold always. split; lra.
  - vm_compute. tauto.
Qed.

(** ** The nitrogen formula *)

Section Nitrogen.

Variables (d : Data.t) (s : RandomSource).


End Nitrogen.



(** ** The soil-type fallback *)

(** A soil type that is neither listed nor a member of [Object.prototype] is
    treated as loam, whatever the random source draws. *)
Lemma unlisted_soil_type_as_loam (d : Data.t) (s : RandomSource) :
  ~ In (Data.soilType d) listed_soil_types ->
  ~ In (Data.soilType d) JS.Object_prototype ->
  predict d s = predict (with_soilType d "loam") s.
Proof.
  intros Hl Hp.
  assert (Hclay : String.eqb (Data.soilType d) "clay" = false).
  { apply String.eqb_neq. intros E. apply Hl. rewrite E. simpl. auto. }
  assert (Hest : evalState (estimate d) s = evalState (estimate (with_soilType d "loam")) s).
  { unfold estimate, evalState, SoilAnalyzer.calculatePotassium.
    cbn [with_soilType Data.pH Data.temperature Data.moisture Data.ec
         Data.organicCarbon Data.soilType].
    rewrite (soil_modifier_default _ Hl Hp), Hclay. reflexivity. }
  rewrite !predict_estimate. cbv zeta. rewrite Hest. reflexivity.
Qed.

(** C9.  The source violates the claim for a soil type that names a member
    of Object.prototype: "toString" is not one of the six listed types, yet
    the nutrient outputs are NaN, not the outputs computed for loam from the
    same draws.  (Same defect as C2; for every unlisted soil type that is not
    such a name the claim holds: [unlisted_soil_type_as_loam].) *)
Theorem C9_inherited_soil_type_is_not_loam :
  ~ In (Data.soilType toString_data) listed_soil_types /\
  with_soilType toString_data "loam" = default_data /\
  soil_modifier (Data.soilType toString_data) = JS.inherited "toString" /\
  evalState (estimate toString_data) (always 0.5) = Nutrients.mk JS.NaN JS.NaN JS.NaN /\
  Result.nitrogen (predict toString_data (always 0.5)) = JS.NaN /\
  Result.nitrogen (predict default_data (always 0.5)) = JS.Num 39.9.
Proof.
  split; [|repeat split].
  simpl. intuition discriminate.
Qed.

(** ** The confidence *)

Lemma predict_confidence (d : Data.t) (s : RandomSource) :
  Result.confidence (predict d s)
  = JS.Num (inject_Z (Qfloor ((85 + s 3%nat * 15) * 10 + (1 # 2))) / 10).
Proof. reflexivity. Qed.

(** C8, as amended.  The confidence lies in [85,100], both ends included. *)
Theorem C8_confidence_bounds (d : Data.t) (s : RandomSource) :
  unit_draws s -> in_range 85 100 (Result.confidence (predict d s)).
Proof.
  intros Hs. destruct (Hs 3%nat) as [H0 H1].
  rewrite predict_confidence. cbn [in_range].
  split; [apply (Qround1_ge 85) | apply (Qround1_le 100)];
    change (inject_Z 85) with 85; change (inject_Z 100) with 100; lra.
Qed.

Lemma C8_confidence_bounds_witness :
  in_range 85 100 (Result.confidence (predict default_data (always 0.5))).
Proof.
  apply (C8_confidence_bounds default_data (always 0.5)).
  intros i. unfold always. split; lra.
Defined.

(** C8, as stated, fails: a draw of 0.999 gives 99.985, which rounds to
    100. *)
Lemma C8_counterexample :
  unit_draws (always 0.999) /\
  Result.confidence (predict default_data (always 0.999)) = JS.Num 100.0 /\
  ~ in_range_open 85 100 (Result.confidence (predict default_data (always 0.999))).
Proof.
  split; [|split].
  - intros i. unfold always. split; lra.
  - vm_compute. reflexivity.
  - vm_compute. intros [_ H]. discriminate H.
Qed.

(** ** The parameter classifier *)

Section Classifier.

(** The bands of the listed parameters. *)
Lemma ranges_bands :
  JS.get SoilAnalyzer.ranges "pH" = JS.own (Band.mk 5.5 7.0 8.5) /\
  JS.get SoilAnalyzer.ranges "temperature" = JS.own (Band.mk 18 25 30) /\
  JS.get SoilAnalyzer.ranges "moisture" = JS.own (Band.mk 30 50 70) /\
  JS.get SoilAnalyzer.ranges "ec" = JS.own (Band.mk 0.5 1.2 2.0) /\
  JS.get SoilAnalyzer.ranges "organicCarbon" = JS.own (Band.mk 1.0 2.5 3.5).
Proof. repeat split. Qed.

(** The rule, for a parameter that the table holds a band for. *)
Lemma getParameterStatus_rule (parameter : string) (b : Band.t) (value : Q) :
  JS.get SoilAnalyzer.ranges parameter = JS.own b ->
  (value < Band.low b ->
   SoilAnalyzer.getParameterStatus parameter value = "Low") /\
  (Band.low b <= value -> Band.high b < value ->
   SoilAnalyzer.getParameterStatus parameter value = "High") /\
  (Band.low b <= value -> value <= Band.high b ->
   Qabs (value - Band.optimal b) <= 0.2 * Band.optimal b ->
   SoilAnalyzer.getParameterStatus parameter value = "Optimal") /\
  (Band.low b <= value -> value <= Band.high b ->
   ~ Qabs (value - Band.optimal b) <= 0.2 * Band.optimal b ->
   SoilAnalyzer.getParameterStatus parameter value = "Good").
Proof.
  intros Hget. unfold SoilAnalyzer.getParameterStatus. rewrite Hget.
  cbn [JS.truthy negb JS.field JS.lt JS.gt JS.le JS.sub JS.mul JS.Math_abs].
  destruct (Qltb_spec value (Band.low b)), (Qltb_spec (Band.high b) value),
    (Qle_bool_spec (Qabs (value - Band.optimal b)) (Band.optimal b * 0.2));
    repeat split; intros; try reflexivity; exfalso; lra.
Qed.

(** A name that is neither a listed parameter nor a member of
    [Object.prototype] gives Unknown. *)
Lemma getParameterStatus_Unknown (parameter : string) (value : JS.number) :
  ~ In parameter listed_parameters -> ~ In parameter JS.Object_prototype ->
  SoilAnalyzer.getParameterStatus parameter value = "Unknown".
Proof.
  intros Hl Hp. unfold SoilAnalyzer.getParameterStatus.
  rewrite (get_undefined _ _ (proj1 (ranges_own parameter) Hl) Hp). reflexivity.
Qed.

(** A name of a member of [Object.prototype] gives Good, whatever the
    value: the member is truthy and has no band, so every test is on NaN. *)
Lemma getParameterStatus_inherited (parameter : string) (value : JS.number) :
  In parameter JS.Object_prototype ->
  SoilAnalyzer.getParameterStatus parameter value = "Good".
Proof.
  intros Hp. unfold SoilAnalyzer.getParameterStatus.
  assert (Hl : ~ In parameter listed_parameters).
  { intros Hl. unfold listed_parameters, JS.Object_prototype in *.
    cbn [In] in *.
    repeat (destruct Hl as [<-|Hl]; [intuition discriminate|]). assumption. }
  rewrite (get_inherited _ _ (proj1 (ranges_own parameter) Hl) Hp).
  destruct value; reflexivity.
Qed.

(** The examples of the specification. *)
Lemma getParameterStatus_examples :
  SoilAnalyzer.getParameterStatus "pH" 7.0 = "Optimal" /\
  SoilAnalyzer.getParameterStatus "pH" 4.0 = "Low" /\
  SoilAnalyzer.getParameterStatus "pH" 12.0 = "High" /\
  SoilAnalyzer.getParameterStatus "unknown" 5 = "Unknown".
Proof. repeat split. Qed.

End Classifier.

(** C4.  The source violates the claim for a parameter name that is a member
    of Object.prototype: "toString" is not one of the five parameters, yet
    [ranges["toString"]] is a function, which is truthy, so the status is
    Good and not Unknown.  (The bands, the rule for the five parameters, the
    examples and Unknown for every other name hold: [ranges_bands],
    [getParameterStatus_rule], [getParameterStatus_examples],
    [getParameterStatus_Unknown].) *)
Theorem C4_inherited_parameter_is_not_Unknown :
  ~ In "toString" listed_parameters /\
  JS.get SoilAnalyzer.ranges "toString" = JS.inherited "toString" /\
  SoilAnalyzer.getParameterStatus "toString" 5 = "Good".
Proof.
  split; [|repeat split].
  simpl. intuition discriminate.
Qed.

(** ** The risk assessment *)

Section Risks.

Lemma ge_true_lt_false (x y : JS.number) :
  (x >=? y)%js = true -> (x <? y)%js = false.
Proof.
  destruct x as [|a], y as [|b]; try reflexivity.
  unfold JS.ge, JS.le, JS.lt, JS.Qltb. now intros ->.
Qed.

Lemma lt_Num (a b : Q) : (JS.Num a <? JS.Num b)%js = JS.Qltb a b.
Proof. reflexivity. Qed.

Lemma gt_Num (a b : Q) : (JS.Num a >? JS.Num b)%js = JS.Qltb b a.
Proof. reflexivity. Qed.

(** The result of [assessRisks] in terms of the rules that fire. *)
Lemma assessRisks_fired (d : Data.t) (nu : Nutrients.t) :
  SoilAnalyzer.assessRisks d nu =
  match fired_labels d nu with
  | [] => "Low risk"
  | labels => JS.join ", " labels
  end.
Proof.
  unfold SoilAnalyzer.assessRisks, fired_labels, risk_rules.
  repeat match goal with
         | |- context [(?a <? ?b)%js] => destruct (a <? b)%js
         | |- context [(?a >? ?b)%js] => destruct (a >? b)%js
         end; reflexivity.
Qed.

(** No label is the sentinel, and no joined text of labels holds it. *)
Lemma fired_labels_no_sentinel (d : Data.t) (nu : Nutrients.t) :
  ~ In "Low risk" (fired_labels d nu) /\
  contains "Low risk" (JS.join ", " (fired_labels d nu)) = false.
Proof.
  unfold fired_labels, risk_rules.
  repeat match goal with
         | |- context [(?a <? ?b)%js] => destruct (a <? b)%js
         | |- context [(?a >? ?b)%js] => destruct (a >? b)%js
         end;
    (split; [cbn; intuition discriminate | vm_compute; reflexivity]).
Qed.

End Risks.

(** C5.  When nitrogen >= 30, phosphorus >= 25, potassium >= 35,
    5.5 <= pH <= 8.5 and EC <= 2.5 the risk assessment is exactly the
    sentinel "Low risk"; and whenever at least one of the six rules fires
    the result is the fired labels, in rule order, joined by ", ", none of
    them is the sentinel and the text does not contain it. *)
Theorem C5_risk_assessment (d : Data.t) (nu : Nutrients.t) :
  ((Nutrients.nitrogen nu >=? 30)%js = true ->
   (Nutrients.phosphorus nu >=? 25)%js = true ->
   (Nutrients.potassium nu >=? 35)%js = true ->
   5.5 <= Data.pH d -> Data.pH d <= 8.5 -> Data.ec d <= 2.5 ->
   SoilAnalyzer.assessRisks d nu = "Low risk") /\
  (fired_labels d nu <> [] ->
   SoilAnalyzer.assessRisks d nu = JS.join ", " (fired_labels d nu) /\
   ~ In "Low risk" (fired_labels d nu) /\
   SoilAnalyzer.assessRisks d nu <> "Low risk" /\
   contains "Low risk" (SoilAnalyzer.assessRisks d nu) = false).
Proof.
  split.
  - intros Hn Hp Hk HpH1 HpH2 Hec.
    rewrite assessRisks_fired. unfold fired_labels, risk_rules.
    rewrite (ge_true_lt_false _ _ Hn), (ge_true_lt_false _ _ Hp),
      (ge_true_lt_false _ _ Hk), lt_Num, !gt_Num.
    rewrite (proj2 (Qltb_ge (Data.pH d) 5.5) HpH1).
    rewrite (proj2 (Qltb_ge 8.5 (Data.pH d)) HpH2).
    rewrite (proj2 (Qltb_ge 2.5 (Data.ec d)) Hec).
    reflexivity.
  - intros Hfired.
    destruct (fired_labels_no_sentinel d nu) as [Hin Hsub].
    assert (Heq : SoilAnalyzer.assessRisks d nu = JS.join ", " (fired_labels d nu)).
    { rewrite assessRisks_fired.
      destruct (fired_labels d nu); [contradiction | reflexivity]. }
    rewrite Heq. repeat split; try assumption.
    intros E. rewrite E in Hsub. discriminate Hsub.
Qed.

Lemma C5_risk_assessment_witness :
  SoilAnalyzer.assessRisks default_data (Nutrients.mk 39.9 46.6 53.3) = "Low risk" /\
  SoilAnalyzer.assessRisks pH20_data (Nutrients.mk 5.0 46.6 53.3)
  = "Soil alkalinity, Nitrogen deficiency".
Proof.
  split.
  - apply (proj1 (C5_risk_assessment default_data (Nutrients.mk 39.9 46.6 53.3)));
      try reflexivity; vm_compute; discriminate.
  - apply (proj2 (C5_risk_assessment pH20_data (Nutrients.mk 5.0 46.6 53.3))).
    vm_compute. discriminate.
Defined.

(** ** The recommendations *)

(** C6.  The recommendation list never holds both the lime and the sulfur
    recommendation; exactly one of the two, and no other pH recommendation,
    is emitted when pH < 6.0 (lime) or pH > 8.0 (sulfur); and there is no pH
    recommendation when 6.0 <= pH <= 8.0. *)
Theorem C6_pH_recommendations (d : Data.t) (nu : Nutrients.t) :
  let recs := SoilAnalyzer.generateRecommendations d nu in
  let lime := count_action "Apply lime to raise pH" recs in
  let sulfur := count_action "Apply sulfur to lower pH" recs in
  (lime + sulfur <= 1)%nat /\
  (Data.pH d < 6 ->
   lime = 1%nat /\ sulfur = 0%nat /\ length (pH_recommendations recs) = 1%nat) /\
  (8 < Data.pH d ->
   lime = 0%nat /\ sulfur = 1%nat /\ length (pH_recommendations recs) = 1%nat) /\
  (6 <= Data.pH d -> Data.pH d <= 8 ->
   lime = 0%nat /\ sulfur = 0%nat /\ pH_recommendations recs = []).
Proof.
  unfold SoilAnalyzer.generateRecommendations.
  rewrite !lt_Num, !gt_Num.
  destruct (Qltb_spec (Data.pH d) 6.0) as [H6|H6],
           (Qltb_spec 8.0 (Data.pH d)) as [H8|H8];
    destruct (JS.Qltb (Data.organicCarbon d) 2.0);
    repeat match goal with
           | |- context [(?a <? ?b)%js] => destruct (a <? b)%js
           end;
    cbv zeta; repeat split; intros; try reflexivity;
    try (cbv; lia); exfalso; lra.
Qed.

Lemma C6_pH_recommendations_witness :
  count_action "Apply lime to raise pH"
    (SoilAnalyzer.generateRecommendations (Data.mk 5 25 50 1.2 2.2 "loam")
       (Nutrients.mk 39.9 46.6 53.3)) = 1%nat /\
  count_action "Apply sulfur to lower pH"
    (SoilAnalyzer.generateRecommendations pH20_data (Nutrients.mk 5.0 7.5 6.0)) = 1%nat /\
  pH_recommendations
    (SoilAnalyzer.generateRecommendations default_data (Nutrients.mk 39.9 46.6 53.3)) = [].
Proof.
  destruct (C6_pH_recommendations (Data.mk 5 25 50 1.2 2.2 "loam")
              (Nutrients.mk 39.9 46.6 53.3)) as (_ & Hlime & _ & _).
  destruct (C6_pH_recommendations pH20_data (Nutrients.mk 5.0 7.5 6.0))
    as (_ & _ & Hsulfur & _).
  destruct (C6_pH_recommendations default_data (Nutrients.mk 39.9 46.6 53.3))
    as (_ & _ & _ & Hnone).
  split; [|split].
  - apply Hlime. vm_compute. reflexivity.
  - apply Hsulfur. vm_compute. reflexivity.
  - apply Hnone; vm_compute; discriminate.
Defined.

(** ** The crop suitability *)

Lemma ge_Num (a b : Q) : (JS.Num a >=? JS.Num b)%js = Qle_bool b a.
Proof. reflexivity. Qed.

(** A score that is not a number falls in the last category. *)
Lemma assessCropSuitability_NaN (fertilityIndex : JS.number) :
  SoilAnalyzer.assessCropSuitability JS.NaN fertilityIndex = NeedsImprovement.
Proof. reflexivity. Qed.



(** ** What depends on the random source *)

(** The estimates read the draws 0, 1 and 2 and nothing else of the source. *)
Lemma estimate_draws (d : Data.t) (s1 s2 : RandomSource) :
  s1 0%nat = s2 0%nat -> s1 1%nat = s2 1%nat -> s1 2%nat = s2 2%nat ->
  evalState (estimate d) s1 = evalState (estimate d) s2.
Proof.
  intros H0 H1 H2. unfold evalState. js_eval. rewrite H0, H1, H2. reflexivity.
Qed.

(** The confidence reads draw 3 and nothing else. *)
Lemma confidence_draw (d1 d2 : Data.t) (s1 s2 : RandomSource) :
  s1 3%nat = s2 3%nat ->
  Result.confidence (predict d1 s1) = Result.confidence (predict d2 s2).
Proof. intros H. rewrite !predict_confidence, H. reflexivity. Qed.



(** * Further properties of the methods *)

(** ** The classifier on every input *)

Section ClassifierMore.


Lemma listed_parameter_band (parameter : string) :
  In parameter listed_parameters ->
  exists b, JS.get SoilAnalyzer.ranges parameter = JS.own b /\
            0 <= Band.optimal b /\
            Band.low b <= 0.8 * Band.optimal b /\
            1.2 * Band.optimal b <= Band.high b.
Proof.
  unfold listed_parameters. cbn [In].
  intros [<-|[<-|[<-|[<-|[<-|[]]]]]];
    eexists; (split; [reflexivity|]); cbn [Band.low Band.optimal Band.high];
    repeat split; lra.
Qed.

End ClassifierMore.



(** A value that is not a number (an unparsable field) is classified Good
    for each of the five parameters: every test on NaN is false. *)
Theorem getParameterStatus_NaN (parameter : string) :
  In parameter listed_parameters ->
  SoilAnalyzer.getParameterStatus parameter JS.NaN = "Good" /\
  SoilAnalyzer.getStatusClass parameter JS.NaN = "status-good".
Proof.
  unfold listed_parameters. cbn [In].
  intros [<-|[<-|[<-|[<-|[<-|[]]]]]]; split; reflexivity.
Qed.

Lemma getParameterStatus_NaN_witness :
  SoilAnalyzer.getParameterStatus "pH" JS.NaN = "Good" /\
  SoilAnalyzer.getStatusClass "pH" JS.NaN = "status-good".
Proof.
  apply (getParameterStatus_NaN "pH"). simpl. auto.
Defined.

(** ** The status class *)

Section StatusClass.

(** For a listed parameter the status is one of the four band statuses. *)
Lemma getParameterStatus_listed (parameter : string) (value : JS.number) :
  In parameter listed_parameters ->
  SoilAnalyzer.getParameterStatus parameter value = "Low" \/
  SoilAnalyzer.getParameterStatus parameter value = "High" \/
  SoilAnalyzer.getParameterStatus parameter value = "Optimal" \/
  SoilAnalyzer.getParameterStatus parameter value = "Good".
Proof.
  intros Hin. destruct (listed_parameter_band parameter Hin) as (b & Hget & _).
  unfold SoilAnalyzer.getParameterStatus. rewrite Hget.
  cbn [JS.truthy negb].
  destruct (_ <? _)%js; [auto|].
  destruct (_ >? _)%js; [auto|].
  destruct (_ <=? _)%js; auto.
Qed.

End StatusClass.

(** The class is status-unknown exactly for a name that is neither one of
    the five parameters nor a member of Object.prototype; for a member of
    Object.prototype it is status-good; and for one of the five parameters
    it is status-warning exactly when the value lies outside the band. *)
Theorem getStatusClass_cases (parameter : string) (value : Q) :
  (SoilAnalyzer.getStatusClass parameter value = "status-unknown" <->
   ~ In parameter listed_parameters /\ ~ In parameter JS.Object_prototype) /\
  (In parameter JS.Object_prototype ->
   SoilAnalyzer.getStatusClass parameter value = "status-good") /\
  (forall b : Band.t,
     JS.get SoilAnalyzer.ranges parameter = JS.own b ->
     (SoilAnalyzer.getStatusClass parameter value = "status-warning" <->
      value < Band.low b \/ Band.high b < value)).
Proof.
  split; [|split].
  - destruct (in_dec string_dec parameter listed_parameters) as [Hl|Hl].
    + split; [|tauto]. intros E. exfalso.
      unfold SoilAnalyzer.getStatusClass in E.
      destruct (getParameterStatus_listed parameter value Hl) as [H|[H|[H|H]]];
        rewrite H in E; discriminate E.
    + destruct (in_dec string_dec parameter JS.Object_prototype) as [Hp|Hp].
      * split; [|tauto]. intros E. exfalso.
        unfold SoilAnalyzer.getStatusClass in E.
        rewrite (getParameterStatus_inherited parameter value Hp) in E.
        discriminate E.
      * split; [tauto|]. intros _.
        unfold SoilAnalyzer.getStatusClass.
        rewrite (getParameterStatus_Unknown parameter value Hl Hp). reflexivity.
  - intros Hp. unfold SoilAnalyzer.getStatusClass.
    rewrite (getParameterStatus_inherited parameter value Hp). reflexivity.
  - intros b Hget.
    unfold SoilAnalyzer.getStatusClass, SoilAnalyzer.getParameterStatus.
    rewrite Hget.
    cbn [JS.truthy negb JS.field JS.lt JS.gt JS.le JS.sub JS.mul JS.Math_abs].
    destruct (Qltb_spec value (Band.low b)), (Qltb_spec (Band.high b) value),
      (Qle_bool (Qabs (value - Band.optimal b)) (Band.optimal b * 0.2));
      cbn; split; intros; try tauto; try discriminate; exfalso; lra.
Qed.

Lemma getStatusClass_cases_witness :
  SoilAnalyzer.getStatusClass "valueOf" 7 = "status-good" /\
  SoilAnalyzer.getStatusClass "moisture" 75 = "status-warning".
Proof.
  destruct (getStatusClass_cases "valueOf" 7) as (_ & Hp & _).
  destruct (getStatusClass_cases "moisture" 75) as (_ & _ & Hw).
  split.
  - apply Hp. simpl. auto 10.
  - apply (Hw (Band.mk 30 50 70)); [reflexivity|]. right. vm_compute. reflexivity.
Defined.

(** ** The nutrient cards *)

(** A higher value never gets a worse status, and a value that is not a
    number gets the worst. *)
Theorem getNutrientStatus_monotone (a b : Q) :
  a <= b ->
  (status_rank (SoilAnalyzer.getNutrientStatus a)
   <= status_rank (SoilAnalyzer.getNutrientStatus b))%nat /\
  (status_rank (SoilAnalyzer.getNutrientStatus JS.NaN)
   <= status_rank (SoilAnalyzer.getNutrientStatus a))%nat.
Proof.
  intros Hab. unfold SoilAnalyzer.getNutrientStatus. rewrite !ge_Num.
  destruct (Qle_bool_spec 70 a), (Qle_bool_spec 50 a), (Qle_bool_spec 30 a),
    (Qle_bool_spec 70 b), (Qle_bool_spec 50 b), (Qle_bool_spec 30 b);
    cbn; split; try lia; exfalso; lra.
Qed.

Lemma getNutrientStatus_monotone_witness :
  (status_rank (SoilAnalyzer.getNutrientStatus 39.9%Q)
   <= status_rank (SoilAnalyzer.getNutrientStatus 53.3%Q))%nat.
Proof.
  apply (getNutrientStatus_monotone 39.9 53.3). vm_compute. discriminate.
Defined.

(** The description falls back to "Analysis complete" exactly for a name
    that is not one of the three nutrients, the members of Object.prototype
    included; for the three nutrients it is a text of the table, for every
    value. *)
Theorem getNutrientDescription_fallback (nutrient : string) (value : JS.number) :
  (~ In nutrient listed_nutrients <->
   SoilAnalyzer.getNutrientDescription nutrient value = JS.own "Analysis complete") /\
  (In nutrient listed_nutrients ->
   exists o text,
     JS.get SoilAnalyzer.descriptions nutrient = JS.own o /\
     In text (map snd o) /\
     SoilAnalyzer.getNutrientDescription nutrient value = JS.own text).
Proof.
  assert (Hlisted : In nutrient listed_nutrients ->
    exists o text,
      JS.get SoilAnalyzer.descriptions nutrient = JS.own o /\
      In text (map snd o) /\ text <> "Analysis complete" /\
      SoilAnalyzer.getNutrientDescription nutrient value = JS.own text).
  { unfold listed_nutrients. cbn [In].
    unfold SoilAnalyzer.getNutrientDescription.
    intros [<-|[<-|[<-|[]]]];
      destruct (value >=? 60)%js; try destruct (value >=? 35)%js;
      do 2 eexists; (split; [reflexivity|]);
      (split; [|split; [|reflexivity]]); cbn; try discriminate; auto 10. }
  split.
  - split.
    + intros Hl. unfold SoilAnalyzer.getNutrientDescription.
      assert (Hget : JS.optional_get (JS.get SoilAnalyzer.descriptions nutrient)
                       (if (value >=? 60)%js then "high"
                        else if (value >=? 35)%js then "medium" else "low")
                     = JS.undefined).
      { unfold JS.get. cbn [JS.own_property SoilAnalyzer.descriptions].
        unfold listed_nutrients in Hl. cbn [In] in Hl.
        repeat match goal with
               | |- context [String.eqb nutrient ?k] =>
                   destruct (String.eqb_spec nutrient k) as [->|?];
                   [exfalso; apply Hl; auto 10|]
               end.
        destruct (existsb _ _); reflexivity. }
      rewrite Hget. reflexivity.
    + intros E Hl. destruct (Hlisted Hl) as (o & text & _ & _ & Hne & Ht).
      rewrite Ht in E. injection E as E. contradiction.
  - intros Hl. destruct (Hlisted Hl) as (o & text & Ho & Hin & _ & Ht).
    exists o, text. auto.
Qed.

Lemma getNutrientDescription_fallback_witness :
  SoilAnalyzer.getNutrientDescription "toString" 80 = JS.own "Analysis complete" /\
  exists o text,
    JS.get SoilAnalyzer.descriptions "potassium" = JS.own o /\
    In text (map snd o) /\
    SoilAnalyzer.getNutrientDescription "potassium" 80 = JS.own text.
Proof.
  destruct (getNutrientDescription_fallback "toString" 80) as ((Hf & _) & _).
  destruct (getNutrientDescription_fallback "potassium" 80) as (_ & Hl).
  split.
  - apply Hf. simpl. intuition discriminate.
  - apply Hl. simpl. auto.
Defined.

(** The card's status and its description agree at both ends: a value with
    status Excellent gets the text of the high level and a value with status
    Poor the text of the low level, whatever the nutrient. *)
Theorem status_description_agree (nutrient : string) (value : JS.number) :
  (SoilAnalyzer.getNutrientStatus value = "Excellent" ->
   SoilAnalyzer.getNutrientDescription nutrient value
   = SoilAnalyzer.getNutrientDescription nutrient 100) /\
  (SoilAnalyzer.getNutrientStatus value = "Poor" ->
   SoilAnalyzer.getNutrientDescription nutrient value
   = SoilAnalyzer.getNutrientDescription nutrient 0).
Proof.
  unfold SoilAnalyzer.getNutrientStatus, SoilAnalyzer.getNutrientDescription.
  destruct value as [|v]; [split; [discriminate | reflexivity]|].
  rewrite !ge_Num.
  change (Qle_bool 60 100) with true. change (Qle_bool 60 0) with false.
  change (Qle_bool 35 0) with false.
  destruct (Qle_bool_spec 70 v), (Qle_bool_spec 50 v), (Qle_bool_spec 30 v),
    (Qle_bool_spec 60 v), (Qle_bool_spec 35 v);
    split; intros; try reflexivity; try discriminate; exfalso; lra.
Qed.

Lemma status_description_agree_witness :
  SoilAnalyzer.getNutrientDescription "nitrogen" 72.5
  = SoilAnalyzer.getNutrientDescription "nitrogen" 100 /\
  SoilAnalyzer.getNutrientDescription "nitrogen" JS.NaN
  = SoilAnalyzer.getNutrientDescription "nitrogen" 0.
Proof.
  destruct (status_description_agree "nitrogen" 72.5) as (He & _).
  destruct (status_description_agree "nitrogen" JS.NaN) as (_ & Hp).
  split; [apply He | apply Hp]; reflexivity.
Defined.

(** ** Phosphorus and potassium *)

Section OtherNutrients.

Variables (d : Data.t) (s : RandomSource).

Lemma predict_phosphorus :
  Result.phosphorus (predict d s) =
  SoilAnalyzer.round1 (clamp (evalState (phosphorus_estimate d) s)).
Proof. reflexivity. Qed.

Lemma predict_potassium :
  Result.potassium (predict d s) =
  SoilAnalyzer.round1 (clamp (evalState (potassium_estimate d) s)).
Proof. reflexivity. Qed.




End OtherNutrients.





(** Each output that depends on the random source depends on one draw only:
    nitrogen on the first, phosphorus on the second, potassium on the third
    and the confidence on the fourth; the confidence does not depend on the
    input record either. *)
Theorem draws_are_separate (d d' : Data.t) (s1 s2 : RandomSource) :
  (s1 0%nat = s2 0%nat ->
   Result.nitrogen (predict d s1) = Result.nitrogen (predict d s2)) /\
  (s1 1%nat = s2 1%nat ->
   Result.phosphorus (predict d s1) = Result.phosphorus (predict d s2)) /\
  (s1 2%nat = s2 2%nat ->
   Result.potassium (predict d s1) = Result.potassium (predict d s2)) /\
  (s1 3%nat = s2 3%nat ->
   Result.confidence (predict d s1) = Result.confidence (predict d' s2)).
Proof.
  repeat split; intros H.
  - rewrite !predict_nitrogen. unfold evalState. js_eval. now rewrite H.
  - rewrite !predict_phosphorus. unfold evalState, phosphorus_estimate. js_eval.
    now rewrite H.
  - rewrite !predict_potassium. unfold evalState, potassium_estimate. js_eval.
    now rewrite H.
  - rewrite !predict_confidence. now rewrite H.
Qed.

Lemma draws_are_separate_witness :
  Result.nitrogen (predict default_data (always 0.5))
  = Result.nitrogen (predict default_data (other_confidence_draws 0.5 0.25)) /\
  Result.confidence (predict default_data (other_confidence_draws 0.25 0.5))
  = Result.confidence (predict pH20_data (always 0.5)).
Proof.
  destruct (draws_are_separate default_data default_data (always 0.5)
              (other_confidence_draws 0.5 0.25)) as (Hn & _).
  destruct (draws_are_separate default_data pH20_data
              (other_confidence_draws 0.25 0.5) (always 0.5)) as (_ & _ & _ & Hc).
  split; [apply Hn | apply Hc]; reflexivity.
Defined.

(** ** The shape of the two indices *)





(** ** Rounding *)

(** A value already rounded to one decimal is not changed by rounding it
    again. *)
Theorem round1_idempotent (x : JS.number) :
  number_eq (SoilAnalyzer.round1 (SoilAnalyzer.round1 x)) (SoilAnalyzer.round1 x).
Proof.
  destruct x as [|q]; [exact I|].
  rewrite !round1_Num. cbn [number_eq].
  set (z := Qfloor (q * 10 + (1 # 2))).
  assert (H : Qfloor (inject_Z z / 10 * 10 + (1 # 2)) = z).
  { assert (E : inject_Z z / 10 * 10 + (1 # 2) == inject_Z z + (1 # 2)) by field.
    rewrite (Qfloor_comp _ _ E).
    apply Z.le_antisymm.
    - assert (Hlt : (Qfloor (inject_Z z + (1 # 2)) < z + 1)%Z); [|lia].
      rewrite Zlt_Qlt.
      apply Qle_lt_trans with (inject_Z z + (1 # 2)); [apply Qfloor_le|].
      rewrite inject_Z_plus. change (inject_Z 1) with 1.
      generalize (inject_Z z). intros; lra.
    - rewrite <- (Qfloor_Z z) at 1. apply Qfloor_resp_le.
      generalize (inject_Z z). intros; lra. }
  rewrite H. reflexivity.
Qed.

(** ** Reading the risk text and the recommendation list *)

Section Advice.

Variables (d : Data.t) (nu : Nutrients.t).

(** Each label is in the text exactly when its rule fires. *)
Lemma risk_text_contains :
  let text := SoilAnalyzer.assessRisks d nu in
  contains "Soil acidity" text = (Data.pH d <? 5.5)%js /\
  contains "Soil alkalinity" text = (Data.pH d >? 8.5)%js /\
  contains "High salinity" text = (Data.ec d >? 2.5)%js /\
  contains "Nitrogen deficiency" text = (Nutrients.nitrogen nu <? 30)%js /\
  contains "Phosphorus deficiency" text = (Nutrients.phosphorus nu <? 25)%js /\
  contains "Potassium deficiency" text = (Nutrients.potassium nu <? 35)%js.
Proof.
  unfold SoilAnalyzer.assessRisks. rule_cases; vm_compute; repeat split.
Qed.

(** Each category is in the list exactly when its rule fires. *)
Lemma recommends_rules :
  let recs := SoilAnalyzer.generateRecommendations d nu in
  advises "Apply lime to raise pH" recs = (Data.pH d <? 6.0)%js /\
  advises "Apply sulfur to lower pH" recs
  = negb (Data.pH d <? 6.0)%js && (Data.pH d >? 8.0)%js /\
  recommends "Nitrogen" recs = (Nutrients.nitrogen nu <? 40)%js /\
  recommends "Phosphorus" recs = (Nutrients.phosphorus nu <? 30)%js /\
  recommends "Potassium" recs = (Nutrients.potassium nu <? 40)%js /\
  recommends "Organic Matter" recs = (Data.organicCarbon d <? 2.0)%js.
Proof.
  unfold SoilAnalyzer.generateRecommendations. rule_cases; vm_compute; repeat split.
Qed.

(** A test against a threshold also holds against a larger one. *)
Lemma lt_weaken (x : JS.number) (a b : Q) :
  a <= b -> (x <? a)%js = true -> (x <? b)%js = true.
Proof.
  destruct x as [|q]; [discriminate|].
  rewrite !lt_Num. intros Hab H. apply Qltb_lt in H. apply Qltb_lt. lra.
Qed.

Lemma gt_weaken (x : JS.number) (a b : Q) :
  b <= a -> (x >? a)%js = true -> (x >? b)%js = true.
Proof.
  destruct x as [|q]; [discriminate|].
  rewrite !gt_Num. intros Hab H. apply Qltb_lt in H. apply Qltb_lt. lra.
Qed.

End Advice.

(** The risk text can be read back: each of the six labels occurs in it
    exactly when its rule fires, and "Low risk" occurs in it exactly when
    none does. *)
Theorem risk_text_readable (d : Data.t) (nu : Nutrients.t) :
  (forall (fires : bool) (label : string),
     In (fires, label) (risk_rules d nu) ->
     contains label (SoilAnalyzer.assessRisks d nu) = fires) /\
  (contains "Low risk" (SoilAnalyzer.assessRisks d nu) = true <->
   fired_labels d nu = []).
Proof.
  split.
  - intros fires label Hin.
    destruct (risk_text_contains d nu) as (H1 & H2 & H3 & H4 & H5 & H6).
    unfold risk_rules in Hin. cbn [In] in Hin.
    destruct Hin as [E|[E|[E|[E|[E|[E|[]]]]]]]; injection E as <- <-; assumption.
  - rewrite assessRisks_fired.
    destruct (fired_labels_no_sentinel d nu) as [_ Hsub].
    destruct (fired_labels d nu) as [|l ls] eqn:E.
    + split; reflexivity.
    + split; [|discriminate]. intros H. rewrite Hsub in H. discriminate H.
Qed.

Lemma risk_text_readable_witness :
  contains "Soil alkalinity"
    (SoilAnalyzer.assessRisks pH20_data (Nutrients.mk 5.0 46.6 53.3)) = true /\
  contains "Low risk"
    (SoilAnalyzer.assessRisks default_data (Nutrients.mk 39.9 46.6 53.3)) = true.
Proof.
  destruct (risk_text_readable pH20_data (Nutrients.mk 5.0 46.6 53.3)) as (H1 & _).
  destruct (risk_text_readable default_data (Nutrients.mk 39.9 46.6 53.3)) as (_ & H2).
  split.
  - apply H1. right. left. reflexivity.
  - apply H2. reflexivity.
Defined.

(** The text never reports acidity and alkalinity together, and it holds at
    most five labels. *)
Theorem risks_at_most_five (d : Data.t) (nu : Nutrients.t) :
  contains "Soil acidity" (SoilAnalyzer.assessRisks d nu)
  && contains "Soil alkalinity" (SoilAnalyzer.assessRisks d nu) = false /\
  (length (fired_labels d nu) <= 5)%nat.
Proof.
  destruct (risk_text_contains d nu) as (H1 & H2 & _).
  rewrite H1, H2, lt_Num, gt_Num.
  unfold fired_labels, risk_rules. rewrite lt_Num, !gt_Num.
  destruct (Qltb_spec (Data.pH d) 5.5), (Qltb_spec 8.5 (Data.pH d));
    try (exfalso; lra);
    (split; [reflexivity|]);
    repeat match goal with
           | |- context [(?a <? ?b)%js] => destruct (a <? b)%js
           end;
    destruct (JS.Qltb 2.5 (Data.ec d)); cbn; lia.
Qed.

(** Every risk other than salinity comes with its remedy: acidity with the
    lime recommendation, alkalinity with the sulfur one, each nutrient
    deficiency with the recommendation of that nutrient. *)
Theorem risks_have_recommendations (d : Data.t) (nu : Nutrients.t) :
  let text := SoilAnalyzer.assessRisks d nu in
  let recs := SoilAnalyzer.generateRecommendations d nu in
  (contains "Soil acidity" text = true ->
   advises "Apply lime to raise pH" recs = true) /\
  (contains "Soil alkalinity" text = true ->
   advises "Apply sulfur to lower pH" recs = true) /\
  (contains "Nitrogen deficiency" text = true -> recommends "Nitrogen" recs = true) /\
  (contains "Phosphorus deficiency" text = true -> recommends "Phosphorus" recs = true) /\
  (contains "Potassium deficiency" text = true -> recommends "Potassium" recs = true).
Proof.
  destruct (risk_text_contains d nu) as (H1 & H2 & _ & H4 & H5 & H6).
  destruct (recommends_rules d nu) as (R1 & R2 & R3 & R4 & R5 & _).
  cbv zeta in *.
  rewrite H1, H2, H4, H5, H6, R1, R2, R3, R4, R5.
  repeat split.
  - apply lt_weaken. lra.
  - rewrite lt_Num, !gt_Num. intros H. apply Qltb_lt in H.
    apply andb_true_iff. split.
    + apply negb_true_iff. apply Qltb_ge. lra.
    + apply Qltb_lt. lra.
  - apply lt_weaken. lra.
  - apply lt_weaken. lra.
  - apply lt_weaken. lra.
Qed.

Lemma risks_have_recommendations_witness :
  advises "Apply sulfur to lower pH"
    (SoilAnalyzer.generateRecommendations pH20_data (Nutrients.mk 5.0 46.6 53.3)) = true /\
  recommends "Nitrogen"
    (SoilAnalyzer.generateRecommendations pH20_data (Nutrients.mk 5.0 46.6 53.3)) = true.
Proof.
  destruct (risks_have_recommendations pH20_data (Nutrients.mk 5.0 46.6 53.3))
    as (_ & Hs & Hn & _).
  split; [apply Hs | apply Hn]; vm_compute; reflexivity.
Defined.

(** An empty recommendation list leaves salinity as the only possible risk:
    the risk text is then "Low risk" or "High salinity", the first when
    EC is at most 2.5. *)
Theorem no_recommendation_no_risk (d : Data.t) (nu : Nutrients.t) :
  SoilAnalyzer.generateRecommendations d nu = [] ->
  (SoilAnalyzer.assessRisks d nu = "Low risk" \/
   SoilAnalyzer.assessRisks d nu = "High salinity") /\
  (Data.ec d <= 2.5 -> SoilAnalyzer.assessRisks d nu = "Low risk").
Proof.
  intros Hnil.
  destruct (recommends_rules d nu) as (R1 & R2 & R3 & R4 & R5 & _).
  cbv zeta in *. rewrite Hnil in *.
  cbn [advises recommends existsb] in R1, R2, R3, R4, R5.
  assert (Hn : (Nutrients.nitrogen nu <? 30)%js = false).
  { destruct (Nutrients.nitrogen nu <? 30)%js eqn:E; [|reflexivity].
    rewrite (lt_weaken _ 30 40) in R3; [discriminate | lra | exact E]. }
  assert (Hp : (Nutrients.phosphorus nu <? 25)%js = false).
  { destruct (Nutrients.phosphorus nu <? 25)%js eqn:E; [|reflexivity].
    rewrite (lt_weaken _ 25 30) in R4; [discriminate | lra | exact E]. }
  assert (Hk : (Nutrients.potassium nu <? 35)%js = false).
  { destruct (Nutrients.potassium nu <? 35)%js eqn:E; [|reflexivity].
    rewrite (lt_weaken _ 35 40) in R5; [discriminate | lra | exact E]. }
  rewrite <- R1 in R2. cbn [negb andb] in R2. symmetry in R1, R2.
  rewrite lt_Num in R1. rewrite gt_Num in R2.
  apply Qltb_ge in R1. apply Qltb_ge in R2.
  unfold SoilAnalyzer.assessRisks. rewrite Hn, Hp, Hk, lt_Num, !gt_Num.
  rewrite (proj2 (Qltb_ge (Data.pH d) 5.5)) by lra.
  rewrite (proj2 (Qltb_ge 8.5 (Data.pH d))) by lra.
  destruct (Qltb_spec 2.5 (Data.ec d)); split; cbn; auto; intros; exfalso; lra.
Qed.

Lemma no_recommendation_no_risk_witness :
  SoilAnalyzer.assessRisks (Data.mk 7 25 50 3 2.5 "loam") (Nutrients.mk 45 45 45)
  = "Low risk" \/
  SoilAnalyzer.assessRisks (Data.mk 7 25 50 3 2.5 "loam") (Nutrients.mk 45 45 45)
  = "High salinity".
Proof.
  apply (no_recommendation_no_risk (Data.mk 7 25 50 3 2.5 "loam") (Nutrients.mk 45 45 45)).
  vm_compute. reflexivity.
Defined.

(** The recommendations come in the order of the rules, at most one per
    category and so at most five, with priority High for the pH and the
    organic-matter category and Medium for the three nutrients. *)
Theorem recommendations_ordered (d : Data.t) (nu : Nutrients.t) :
  let recs := SoilAnalyzer.generateRecommendations d nu in
  subsequence (map Recommendation.type recs) recommendation_order = true /\
  (length recs <= 5)%nat /\
  Forall (fun r =>
            Recommendation.priority r
            = if String.eqb (Recommendation.type r) "pH Correction"
                 || String.eqb (Recommendation.type r) "Organic Matter"
              then "High" else "Medium") recs.
Proof.
  unfold SoilAnalyzer.generateRecommendations.
  repeat match goal with
         | |- context [(?a <? ?b)%js] => destruct (a <? b)%js
         | |- context [(?a >? ?b)%js] => destruct (a >? b)%js
         end;
    cbv zeta; cbn [SoilAnalyzer.push_if app];
    (split; [reflexivity | split; [cbn; lia | repeat constructor]]).
Qed.

(** ** The result as a whole *)

Section Whole.

Variables (d : Data.t) (s : RandomSource).

Lemma predict_riskAssessment :
  Result.riskAssessment (predict d s)
  = SoilAnalyzer.assessRisks d (evalState (estimate d) s).
Proof. reflexivity. Qed.

Lemma predict_recommendations :
  Result.recommendations (predict d s)
  = SoilAnalyzer.generateRecommendations d (evalState (estimate d) s).
Proof. reflexivity. Qed.

(** What a reported value tells about the value before rounding. *)
Lemma round1_below (t : Z) (x : JS.number) (r : Q) :
  SoilAnalyzer.round1 x = JS.Num r -> r < inject_Z t ->
  (x <? JS.Num (inject_Z t))%js = true.
Proof.
  destruct x as [|q]; [discriminate|].
  rewrite round1_Num, lt_Num. intros [= <-] Hr.
  apply Qltb_lt. apply Qnot_le_lt. intros Hq.
  apply (Qround1_ge t) in Hq. exact (Qlt_not_le _ _ Hr Hq).
Qed.

Lemma round1_above (t : Z) (x : JS.number) (r : Q) :
  SoilAnalyzer.round1 x = JS.Num r -> inject_Z t < r ->
  (x <? JS.Num (inject_Z t))%js = false.
Proof.
  destruct x as [|q]; [discriminate|].
  rewrite round1_Num, lt_Num. intros [= <-] Hr.
  apply Qltb_ge. apply Qnot_lt_le. intros Hq.
  assert (Hq' : q <= inject_Z t) by lra.
  apply (Qround1_le t) in Hq'. exact (Qlt_not_le _ _ Hr Hq').
Qed.

End Whole.

(** The risk text agrees with the reported nutrients away from the
    thresholds: a reported nitrogen below 30 comes with "Nitrogen
    deficiency" and one above 30 without it, and likewise for phosphorus at
    25 and potassium at 35.  (At the threshold itself the rounding decides:
    the rule reads the value before it is rounded.) *)
Theorem risks_match_reported_nutrients (d : Data.t) (s : RandomSource) (n p k : Q) :
  Result.nitrogen (predict d s) = JS.Num n ->
  Result.phosphorus (predict d s) = JS.Num p ->
  Result.potassium (predict d s) = JS.Num k ->
  let text := Result.riskAssessment (predict d s) in
  (n < 30 -> contains "Nitrogen deficiency" text = true) /\
  (30 < n -> contains "Nitrogen deficiency" text = false) /\
  (p < 25 -> contains "Phosphorus deficiency" text = true) /\
  (25 < p -> contains "Phosphorus deficiency" text = false) /\
  (k < 35 -> contains "Potassium deficiency" text = true) /\
  (35 < k -> contains "Potassium deficiency" text = false).
Proof.
  rewrite predict_estimate.
  cbn [Result.nitrogen Result.phosphorus Result.potassium Result.riskAssessment].
  intros Hn Hp Hk.
  destruct (risk_text_contains d (evalState (estimate d) s))
    as (_ & _ & _ & -> & -> & ->).
  repeat split; intros H.
  - exact (round1_below 30 _ _ Hn H).
  - exact (round1_above 30 _ _ Hn H).
  - exact (round1_below 25 _ _ Hp H).
  - exact (round1_above 25 _ _ Hp H).
  - exact (round1_below 35 _ _ Hk H).
  - exact (round1_above 35 _ _ Hk H).
Qed.

Lemma risks_match_reported_nutrients_witness :
  contains "Nitrogen deficiency"
    (Result.riskAssessment (predict pH20_data (always 0.5))) = true /\
  contains "Nitrogen deficiency"
    (Result.riskAssessment (predict default_data (always 0.5))) = false.
Proof.
  destruct (risks_match_reported_nutrients pH20_data (always 0.5) 5.0 7.5 6.0)
    as (H1 & _); try (vm_compute; reflexivity).
  destruct (risks_match_reported_nutrients default_data (always 0.5) 39.9 46.6 53.3)
    as (_ & H2 & _); try (vm_compute; reflexivity).
  split; [apply H1 | apply H2]; vm_compute; reflexivity.
Defined.

(** With a soil type that names a member of Object.prototype the whole
    result degrades silently: both indices are NaN, the suitability is the
    lowest category, and yet no deficiency is reported and no fertilizer is
    recommended. *)
Theorem inherited_soil_type_result (d : Data.t) (s : RandomSource) :
  In (Data.soilType d) JS.Object_prototype ->
  Result.soilHealth (predict d s) = JS.NaN /\
  Result.fertilityIndex (predict d s) = JS.NaN /\
  Result.cropSuitability (predict d s) = NeedsImprovement /\
  contains "deficiency" (Result.riskAssessment (predict d s)) = false /\
  recommends "Nitrogen" (Result.recommendations (predict d s)) = false /\
  recommends "Phosphorus" (Result.recommendations (predict d s)) = false /\
  recommends "Potassium" (Result.recommendations (predict d s)) = false.
Proof.
  intros Hp. rewrite predict_estimate, (estimate_NaN d s Hp).
  cbn [Result.soilHealth Result.fertilityIndex Result.cropSuitability
       Result.riskAssessment Result.recommendations
       Nutrients.nitrogen Nutrients.phosphorus Nutrients.potassium].
  destruct (recommends_rules d (Nutrients.mk JS.NaN JS.NaN JS.NaN))
    as (_ & _ & -> & -> & -> & _).
  repeat split.
  unfold SoilAnalyzer.assessRisks.
  cbn [Nutrients.nitrogen Nutrients.phosphorus Nutrients.potassium].
  change (JS.NaN <? 30)%js with false.
  change (JS.NaN <? 25)%js with false.
  change (JS.NaN <? 35)%js with false.
  rule_cases; vm_compute; reflexivity.
Qed.

Lemma inherited_soil_type_result_witness :
  Result.cropSuitability (predict toString_data (always 0.5)) = NeedsImprovement /\
  contains "deficiency" (Result.riskAssessment (predict toString_data (always 0.5)))
  = false.
Proof.
  destruct (inherited_soil_type_result toString_data (always 0.5)) as (_ & _ & H1 & H2 & _).
  - simpl. auto 10.
  - split; [exact H1 | exact H2].
Defined.
